(** * The ACME provisioner of [authority/provisioner/acme.go]

    A shallow embedding of the ACME provisioner: the challenge kinds and
    their validation, the provisioner record and its initialisation, the
    order-identifier authorisation against the X.509 policy, and the
    assembly of the sign options.

    Conventions of the embedding.
    - A Go [string] is a sequence of bytes: Rocq's [string].
    - A Go [error] result is an [option error]; [None] is [nil].
    - A pointer that may be [nil] is an [option].
    - A method with a pointer receiver that assigns to a field takes the
      record and returns the updated record next to its result.
    - A call that dereferences a [nil] pointer ends in [Panics].
    - The [context.Context] arguments are never read by the methods below
      and are left out. *)

From Stdlib Require Import String Ascii List Bool NArith ZArith Lia.
Import ListNotations.

Local Open Scope string_scope.

Set Implicit Arguments.

(* ===================================================================== *)
(** * Part I. Definitions *)
(* ===================================================================== *)

(** ** Go run-time values *)

(** The outcome of a call: it returns a value, or the goroutine panics. *)
Inductive outcome (A : Type) : Type :=
| Returns (a : A)
| Panics.
Arguments Panics {A}.

(** [time.Duration] is a signed 64-bit count of nanoseconds. *)
Definition Duration : Type := Z.

(** The functions of Go's [strings] package that the provisioner calls.
    They work on UTF-8 text with the Unicode case tables; the provisioner
    is modelled over any implementation of them. *)
Module strings.
Class API : Type := {
  ToLower : string -> string;
  EqualFold : string -> string -> bool
}.
End strings.

(** The part of Go's [net] package that the provisioner calls. A [net.IP]
    is a byte slice; [ParseIP] returns [nil] when the text is not an
    address. *)
Module net.
Definition IP : Type := option (list Byte.byte).
Class API : Type := {
  ParseIP : string -> IP
}.
End net.

(** ** Challenge and identifier kinds *)

(** [type ACMEChallenge string] *)
Definition ACMEChallenge : Type := string.

Definition HTTP_01 : ACMEChallenge := "http-01".
Definition DNS_01 : ACMEChallenge := "dns-01".
Definition TLS_ALPN_01 : ACMEChallenge := "tls-alpn-01".
Definition DEVICE_ATTEST_01 : ACMEChallenge := "device-attest-01".

(** [type ACMEIdentifierType string] *)
Definition ACMEIdentifierType : Type := string.

Definition IP : ACMEIdentifierType := "ip".
Definition DNS : ACMEIdentifierType := "dns".

(** [type ACMEIdentifier struct { Type; Value }] *)
Module ACMEIdentifier.
Record t : Type := Build {
  Type_ : ACMEIdentifierType;
  Value : string
}.
End ACMEIdentifier.

(** ** Errors *)

(** An operand handed to [fmt.Errorf]. An [ACMEChallenge] has a [String]
    method, so the verbs [%q], [%s] and [%v] print what that method
    returns; an [ACMEIdentifierType] has none and is printed as it is. *)
Inductive operand : Type :=
| challengeOperand (c : ACMEChallenge)
| identifierTypeOperand (t : ACMEIdentifierType).

(** An error value records how it was built: [errors.New(text)] or
    [fmt.Errorf(format, operands...)]. *)
Inductive error : Type :=
| errorsNew (text : string)
| fmtErrorf (format : string) (operands : list operand).

Section Challenge.
Context `{strings.API}.

(** [func (c ACMEChallenge) String() string] *)
Definition ACMEChallenge_String (c : ACMEChallenge) : string :=
  strings.ToLower c.

(** [func (c ACMEChallenge) Validate() error] *)
Definition Validate (c : ACMEChallenge) : option error :=
  let n : ACMEChallenge := ACMEChallenge_String c in
  if (n =? HTTP_01) || (n =? DNS_01) || (n =? TLS_ALPN_01)
     || (n =? DEVICE_ATTEST_01)
  then None
  else Some (fmtErrorf "acme challenge %q is not supported"
                       [challengeOperand c]).

(** The text that [fmt] prints for an operand under a string verb. *)
Definition printed (o : operand) : string :=
  match o with
  | challengeOperand c => ACMEChallenge_String c
  | identifierTypeOperand t => t
  end.

End Challenge.

(** ** Collaborators of the provisioner *)

(** Modelled from the spec: the X.509 PolicyGate of section 6, an
    interface with the two questions [IsIPAllowed(ip) error] and
    [IsDNSAllowed(name) error]; its implementations are not part of
    [acme.go]. *)
Record X509Policy : Type := {
  IsIPAllowed : net.IP -> option error;
  IsDNSAllowed : string -> option error
}.

(** Modelled from the spec: the policy engine that the controller holds;
    its X.509 gate may be absent. Only the X.509 side is read here. *)
Record policyEngine : Type := {
  x509Policy : option X509Policy
}.

(** Modelled from the spec: the duration bounds that the controller
    supplies (section 6: default, minimum and maximum TLS certificate
    duration). *)
Module Claimer.
Record t : Type := Build {
  DefaultTLSCertDuration : Duration;
  MinTLSCertDuration : Duration;
  MaxTLSCertDuration : Duration
}.
End Claimer.

(** Modelled from the spec: the IssuanceController of section 6, built
    once by [NewController]; it carries the duration bounds and the
    policy engine, which may be absent. *)
Record Controller : Type := {
  Claimer : Claimer.t;
  policy : option policyEngine
}.

(** Modelled from the spec: [Controller.getPolicy], the accessor of the
    controller's policy (section 6, "may be absent/nil"). It has a pointer
    receiver; a controller that is [nil] has no policy. *)
Definition getPolicy (c : option Controller) : option policyEngine :=
  match c with
  | None => None
  | Some c' => policy c'
  end.

(** Modelled from the spec: [policyEngine.getX509], the X.509 gate of a
    policy engine, absent when the engine is. *)
Definition getX509 (e : option policyEngine) : option X509Policy :=
  match e with
  | None => None
  | Some e' => x509Policy e'
  end.

(** The provisioner families; only the ACME one is named in [acme.go]. *)
Inductive ProvisionerType : Type :=
| TypeACME.

(** The types [Claims], [Options] and [Config] of package [provisioner]
    are declared in other files; [acme.go] only passes their values on to
    [NewController]. *)
Class Declarations : Type := {
  Claims : Type;
  Options : Type;
  Config : Type
}.

(** ** The provisioner *)

(** [type ACME struct]. The embedded [*base] has no field that [acme.go]
    reads and is left out. *)
Record ACME `{Declarations} : Type := {
  ID : string;
  Type_ : string;
  Name : string;
  ForceCN : bool;
  RequireEAB : bool;
  Challenges : list ACMEChallenge;
  Claims_ : option Claims;
  Options_ : option Options;
  ctl : option Controller
}.

(** The assignment [p.ctl = c]. *)
Definition set_ctl `{Declarations} (p : ACME) (c : option Controller) : ACME :=
  {| ID := ID p; Type_ := Type_ p; Name := Name p; ForceCN := ForceCN p;
     RequireEAB := RequireEAB p; Challenges := Challenges p;
     Claims_ := Claims_ p; Options_ := Options_ p; ctl := c |}.

(** [NewController] is declared in another file of the package: it merges
    the provisioner's claims and options with the global configuration
    and returns the controller, or an error. *)
Class Constructors `{Declarations} : Type := {
  NewController :
    ACME -> option Claims -> Config -> option Options ->
    option Controller * option error
}.

(** Modelled from the spec: the elements of the sign-constraint chain of
    section 4.5. The first constructor is the provisioner itself, which
    [AuthorizeSign] places in the chain; the others record the arguments
    that [acme.go] passes to the constructors of the modifiers and
    validators, which are declared in other files. *)
Inductive SignOption `{Declarations} : Type :=
| provisionerItself (p : ACME)
| newProvisionerExtensionOption (typ : ProvisionerType) (name : string)
    (credentialID : string)
| newForceCNOption (forceCN : bool)
| profileDefaultDuration (d : Duration)
| defaultPublicKeyValidator
| newValidityValidator (min max : Duration)
| newX509NamePolicyValidator (engine : option X509Policy).

Section Provisioner.
Context {go_strings : strings.API} {go_net : net.API}
  {decls : Declarations} {ctors : Constructors}.

(** [func (p *ACME) GetIDForToken() string] *)
Definition GetIDForToken (p : ACME) : string :=
  "acme/" ++ Name p.

(** [func (p ACME) GetID() string] *)
Definition GetID (p : ACME) : string :=
  if ID p =? EmptyString then GetIDForToken p else ID p.

(** [func (p *ACME) GetName() string] *)
Definition GetName (p : ACME) : string :=
  Name p.

(** [func (p *ACME) GetTokenID(ott string) (string, error)] *)
Definition GetTokenID (p : ACME) (ott : string) : string * option error :=
  (EmptyString,
   Some (errorsNew "acme provisioner does not implement GetTokenID")).

(** [func (p *ACME) GetType() Type] *)
Definition GetType (p : ACME) : ProvisionerType :=
  TypeACME.

(** [func (p *ACME) GetEncryptedKey() (string, string, bool)] *)
Definition GetEncryptedKey (p : ACME) : string * string * bool :=
  (EmptyString, EmptyString, false).

(** [func (p *ACME) GetOptions() *Options] *)
Definition GetOptions (p : ACME) : option Options :=
  Options_ p.

(** [func (p *ACME) DefaultTLSCertDuration() time.Duration]: the field
    selection [p.ctl.Claimer] panics on a [nil] controller. *)
Definition DefaultTLSCertDuration (p : ACME) : outcome Duration :=
  match ctl p with
  | None => Panics
  | Some c => Returns (Claimer.DefaultTLSCertDuration (Claimer c))
  end.

(** The loop [for _, c := range p.Challenges] of [Init]: the first error
    of [Validate] leaves the loop and is returned. *)
Fixpoint Init_range (cs : list ACMEChallenge) : option error :=
  match cs with
  | [] => None
  | c :: rest =>
      match Validate c with
      | Some err => Some err
      | None => Init_range rest
      end
  end.

(** [func (p *ACME) Init(config Config) (err error)]: the provisioner after
    the call, and the error. *)
Definition Init (p : ACME) (config : Config) : ACME * option error :=
  if Type_ p =? EmptyString then
    (p, Some (errorsNew "provisioner type cannot be empty"))
  else if Name p =? EmptyString then
    (p, Some (errorsNew "provisioner name cannot be empty"))
  else
    match Init_range (Challenges p) with
    | Some err => (p, Some err)
    | None =>
        let (c, err) := NewController p (Claims_ p) config (Options_ p) in
        (set_ctl p c, err)
    end.

(** [func (p *ACME) AuthorizeOrderIdentifier(ctx, identifier) error] *)
Definition AuthorizeOrderIdentifier (p : ACME) (identifier : ACMEIdentifier.t)
  : option error :=
  match getX509 (getPolicy (ctl p)) with
  | None => None
  | Some x509Policy =>
      if ACMEIdentifier.Type_ identifier =? IP then
        IsIPAllowed x509Policy (net.ParseIP (ACMEIdentifier.Value identifier))
      else if ACMEIdentifier.Type_ identifier =? DNS then
        IsDNSAllowed x509Policy (ACMEIdentifier.Value identifier)
      else
        Some (fmtErrorf "invalid ACME identifier type '%s' provided"
                [identifierTypeOperand (ACMEIdentifier.Type_ identifier)])
  end.

(** [func (p *ACME) AuthorizeSign(ctx, token) ([]SignOption, error)]: the
    field selections [p.ctl.Claimer] panic on a [nil] controller. *)
Definition AuthorizeSign (p : ACME) (token : string)
  : outcome (list SignOption * option error) :=
  match ctl p with
  | None => Panics
  | Some c =>
      let opts := [
        provisionerItself p;
        newProvisionerExtensionOption TypeACME (Name p) EmptyString;
        newForceCNOption (ForceCN p);
        profileDefaultDuration (Claimer.DefaultTLSCertDuration (Claimer c));
        defaultPublicKeyValidator;
        newValidityValidator (Claimer.MinTLSCertDuration (Claimer c))
                             (Claimer.MaxTLSCertDuration (Claimer c));
        newX509NamePolicyValidator (getX509 (getPolicy (ctl p)))
      ] in
      Returns (opts, None)
  end.

(** [func (p *ACME) AuthorizeRevoke(ctx, token) error] *)
Definition AuthorizeRevoke (p : ACME) (token : string) : option error :=
  None.

(** The loop [for _, ch := range enabledChallenges] of
    [IsChallengeEnabled]. *)
Fixpoint IsChallengeEnabled_range (enabledChallenges : list ACMEChallenge)
  (challenge : ACMEChallenge) : bool :=
  match enabledChallenges with
  | [] => false
  | ch :: rest =>
      if strings.EqualFold ch challenge then true
      else IsChallengeEnabled_range rest challenge
  end.

(** [func (p *ACME) IsChallengeEnabled(ctx, challenge) bool] *)
Definition IsChallengeEnabled (p : ACME) (challenge : ACMEChallenge) : bool :=
  let enabledChallenges := [HTTP_01; DNS_01; TLS_ALPN_01] in
  let enabledChallenges :=
    if (0 <? length (Challenges p))%nat then Challenges p
    else enabledChallenges in
  IsChallengeEnabled_range enabledChallenges challenge.

End Provisioner.

(** ** The words of the specification *)

(** The four defined challenge kinds. *)
Definition definedKinds : list ACMEChallenge :=
  [HTTP_01; DNS_01; TLS_ALPN_01; DEVICE_ATTEST_01].

(** The effective enabled set: the configured list verbatim when it is
    not empty, and otherwise http-01, dns-01 and tls-alpn-01. *)
Definition effective_set `{Declarations} (p : ACME) : list ACMEChallenge :=
  match Challenges p with
  | [] => [HTTP_01; DNS_01; TLS_ALPN_01]
  | _ :: _ => Challenges p
  end.

(** The six modifiers and validators of section 4.5, in its order, for a
    provisioner whose controller is [c]. *)
Definition section_4_5_chain `{Declarations} (p : ACME) (c : Controller)
  : list SignOption :=
  [ newProvisionerExtensionOption TypeACME (Name p) EmptyString;
    newForceCNOption (ForceCN p);
    profileDefaultDuration (Claimer.DefaultTLSCertDuration (Claimer c));
    defaultPublicKeyValidator;
    newValidityValidator (Claimer.MinTLSCertDuration (Claimer c))
                         (Claimer.MaxTLSCertDuration (Claimer c));
    newX509NamePolicyValidator (getX509 (getPolicy (Some c))) ].

(** ** The [strings] functions on ASCII text

    On a string of ASCII bytes Go's [strings.ToLower] and
    [strings.EqualFold] take a byte-wise path; that path is written out
    here. It lets the model run on concrete ASCII inputs. *)
Module ASCII.

Definition isUpper (b : ascii) : bool :=
  (65 <=? N_of_ascii b)%N && (N_of_ascii b <=? 90)%N.

(** ['A' <= c && c <= 'Z'] then [c += 'a' - 'A'] *)
Definition lowerByte (b : ascii) : ascii :=
  if isUpper b then ascii_of_N (N_of_ascii b + 32) else b.

Fixpoint ToLower (s : string) : string :=
  match s with
  | EmptyString => EmptyString
  | String b rest => String (lowerByte b) (ToLower rest)
  end.

(** One step of the loop of [EqualFold]: equal bytes, or the smaller one
    is an upper-case letter and the larger one its lower-case form. *)
Definition foldByte (sr tr : ascii) : bool :=
  let a := N_of_ascii sr in
  let b := N_of_ascii tr in
  if (a =? b)%N then true
  else
    let lo := N.min a b in
    let hi := N.max a b in
    (65 <=? lo)%N && (lo <=? 90)%N && (hi =? lo + 32)%N.

(** The loop runs while both strings have bytes left and ends with
    [len(s) == len(t)]. *)
Fixpoint EqualFold (s t : string) : bool :=
  match s, t with
  | EmptyString, EmptyString => true
  | String sr s', String tr t' =>
      if foldByte sr tr then EqualFold s' t' else false
  | _, _ => false
  end.

Definition API : strings.API :=
  {| strings.ToLower := ToLower; strings.EqualFold := EqualFold |}.

(** Every byte is below [utf8.RuneSelf], that is below 128. *)
Fixpoint isASCII (s : string) : bool :=
  match s with
  | EmptyString => true
  | String b rest => (N_of_ascii b <? 128)%N && isASCII rest
  end.

(** An implementation of [strings] takes the byte-wise path on ASCII
    text, as Go's does. *)
Definition onASCII (api : strings.API) : Prop :=
  (forall s, isASCII s = true -> @strings.ToLower api s = ToLower s) /\
  (forall s t, isASCII s = true -> isASCII t = true ->
     @strings.EqualFold api s t = EqualFold s t).

End ASCII.

(** ** Fixtures: stand-ins for the collaborators on concrete inputs *)

Module Fixture.

(** The loopback address in its 16-byte form. *)
Definition loopback : list Byte.byte :=
  [Byte.x00; Byte.x00; Byte.x00; Byte.x00; Byte.x00; Byte.x00; Byte.x00;
   Byte.x00; Byte.x00; Byte.x00; Byte.xff; Byte.xff; Byte.x7f; Byte.x00;
   Byte.x00; Byte.x01].

(** A parser that knows one address and answers [nil] otherwise. *)
Definition netAPI : net.API :=
  {| net.ParseIP :=
       fun s => if s =? "127.0.0.1" then Some loopback else None |}.

(** A gate that denies one DNS name and the [nil] address. *)
Definition gate : X509Policy :=
  {| IsIPAllowed := fun ip =>
       match ip with
       | None => Some (errorsNew "ip address not allowed")
       | Some _ => None
       end;
     IsDNSAllowed := fun name =>
       if name =? "denied.example.com"
       then Some (errorsNew "dns name not allowed")
       else None |}.

(** Claims override the default duration, options carry the gate and the
    configuration carries the global bounds. *)
Definition declarations : Declarations :=
  {| Claims := Duration; Options := X509Policy; Config := Claimer.t |}.

(** A constructor that merges the override with the global bounds and
    refuses a default outside of them. *)
Definition newController (p : @ACME declarations) (claims : option Duration)
  (config : Claimer.t) (options : option X509Policy)
  : option Controller * option error :=
  let d := match claims with
           | Some d => d
           | None => Claimer.DefaultTLSCertDuration config
           end in
  if ((Claimer.MinTLSCertDuration config <=? d)
      && (d <=? Claimer.MaxTLSCertDuration config))%Z
  then (Some {| Claimer := Claimer.Build d (Claimer.MinTLSCertDuration config)
                             (Claimer.MaxTLSCertDuration config);
                policy := Some {| x509Policy := options |} |}, None)
  else (None, Some (errorsNew "default duration out of bounds")).

Definition constructors : @Constructors declarations :=
  {| NewController := newController |}.

(** Global claims in nanoseconds: a default of one day, between five
    minutes and one year. *)
Definition config : Claimer.t :=
  Claimer.Build 86400000000000%Z 300000000000%Z 31536000000000000%Z.

(** A provisioner as loaded from configuration, before [Init]. *)
Definition loaded (challenges : list ACMEChallenge)
  (options : option X509Policy) : @ACME declarations :=
  @Build_ACME declarations EmptyString "ACME" "acme" true false challenges None
    options None.

(** The controller that [newController] builds from [config]. *)
Definition controller (options : option X509Policy) : Controller :=
  {| Claimer := config; policy := Some {| x509Policy := options |} |}.

(** The same provisioner once that controller has been stored. *)
Definition initialised (challenges : list ACMEChallenge)
  (options : option X509Policy) : @ACME declarations :=
  set_ctl (loaded challenges options) (Some (controller options)).

(** Provisioners whose [Type], or whose [Name], is empty. *)
Definition untyped : @ACME declarations :=
  @Build_ACME declarations EmptyString EmptyString "acme" true false []
    None None None.

Definition unnamed : @ACME declarations :=
  @Build_ACME declarations EmptyString "ACME" EmptyString true false []
    None None None.

(** An identifier of a kind that is neither ip nor dns. *)
Definition unknownIdentifier : ACMEIdentifier.t :=
  ACMEIdentifier.Build "unknown" "example.com".

(** Global claims whose default lies outside of their bounds, which
    [newController] refuses. *)
Definition badConfig : Claimer.t :=
  Claimer.Build 1%Z 2%Z 3%Z.

End Fixture.

(* ===================================================================== *)
(** * Part II. Properties *)
(* ===================================================================== *)

Unset Implicit Arguments.

(** ** Bytes and ASCII folding *)

Lemma N_of_ascii_inj (a b : ascii) : N_of_ascii a = N_of_ascii b -> a = b.
Proof.
  intros E. rewrite <- (ascii_N_embedding a), <- (ascii_N_embedding b).
  now rewrite E.
Qed.

Lemma N_of_lowerByte (b : ascii) :
  N_of_ascii (ASCII.lowerByte b) =
  (if ASCII.isUpper b then N_of_ascii b + 32 else N_of_ascii b)%N.
Proof.
  unfold ASCII.lowerByte. destruct (ASCII.isUpper b) eqn:U; [|reflexivity].
  unfold ASCII.isUpper in U. apply andb_true_iff in U as [_ U].
  apply N.leb_le in U. apply N_ascii_embedding. lia.
Qed.

Lemma foldByte_lowerByte (a b : ascii) :
  ASCII.foldByte a b = true <-> ASCII.lowerByte a = ASCII.lowerByte b.
Proof.
  split.
  - intros F. apply N_of_ascii_inj. rewrite !N_of_lowerByte.
    unfold ASCII.foldByte in F. unfold ASCII.isUpper.
    destruct (N.eqb_spec (N_of_ascii a) (N_of_ascii b)) as [E|E].
    + now rewrite E.
    + apply andb_true_iff in F as [F H3]. apply andb_true_iff in F as [H1 H2].
      apply N.leb_le in H1, H2. apply N.eqb_eq in H3.
      destruct (N.leb_spec 65 (N_of_ascii a)), (N.leb_spec (N_of_ascii a) 90),
        (N.leb_spec 65 (N_of_ascii b)), (N.leb_spec (N_of_ascii b) 90);
        cbn [andb]; lia.
  - intros L. apply (f_equal N_of_ascii) in L. rewrite !N_of_lowerByte in L.
    unfold ASCII.foldByte. unfold ASCII.isUpper in L.
    destruct (N.eqb_spec (N_of_ascii a) (N_of_ascii b)) as [E|E]; [reflexivity|].
    destruct (N.leb_spec 65 (N_of_ascii a)), (N.leb_spec (N_of_ascii a) 90),
      (N.leb_spec 65 (N_of_ascii b)), (N.leb_spec (N_of_ascii b) 90);
      cbn [andb] in L; try lia;
      rewrite !andb_true_iff, !N.leb_le, N.eqb_eq; lia.
Qed.

(** On ASCII text the two case-insensitive comparisons of [acme.go] agree:
    folding two strings together is comparing their lower-case forms. *)
Lemma EqualFold_ToLower (s t : string) :
  ASCII.EqualFold s t = true <-> ASCII.ToLower s = ASCII.ToLower t.
Proof.
  revert t. induction s as [|a s IH]; intros [|b t]; cbn.
  - tauto.
  - split; discriminate.
  - split; discriminate.
  - destruct (ASCII.foldByte a b) eqn:F.
    + apply foldByte_lowerByte in F. rewrite F, IH.
      split; [intros ->; reflexivity | now injection 1].
    + split; [discriminate|]. injection 1 as E _.
      apply foldByte_lowerByte in E. congruence.
Qed.

(** The four defined kinds are ASCII text in lower case. *)
Lemma ToLower_definedKinds (k : ACMEChallenge) :
  In k definedKinds -> ASCII.ToLower k = k.
Proof. intros [<-|[<-|[<-|[<-|[]]]]]; reflexivity. Qed.


(** The byte-wise functions are an implementation that takes the
    byte-wise path. *)
Lemma onASCII_API : ASCII.onASCII ASCII.API.
Proof. split; intros; reflexivity. Qed.

Section Properties.
Context {go_strings : strings.API} {go_net : net.API}
  {decls : Declarations} {ctors : Constructors}.

(** ** Validation of a challenge kind *)

Lemma Validate_None_iff (c : ACMEChallenge) :
  Validate c = None <-> In (ACMEChallenge_String c) definedKinds.
Proof.
  unfold Validate, definedKinds. cbn [In].
  destruct (String.eqb_spec (ACMEChallenge_String c) HTTP_01),
    (String.eqb_spec (ACMEChallenge_String c) DNS_01),
    (String.eqb_spec (ACMEChallenge_String c) TLS_ALPN_01),
    (String.eqb_spec (ACMEChallenge_String c) DEVICE_ATTEST_01);
    cbn [orb]; split; intros; auto; try discriminate;
    intuition congruence.
Qed.

Lemma Validate_error (c : ACMEChallenge) :
  Validate c <> None ->
  Validate c = Some (fmtErrorf "acme challenge %q is not supported"
                       [challengeOperand c]).
Proof.
  unfold Validate. destruct (_ || _); [contradiction | reflexivity].
Qed.

(** ** The validation loop of [Init] *)

Lemma Init_range_None_iff (cs : list ACMEChallenge) :
  Init_range cs = None <-> forall c, In c cs -> Validate c = None.
Proof.
  induction cs as [|c cs IH]; cbn.
  - split; [intros _ c [] | reflexivity].
  - destruct (Validate c) eqn:V.
    + split; [discriminate|]. intros A. specialize (A c (or_introl eq_refl)).
      congruence.
    + rewrite IH. split.
      * intros A x [<-|I]; auto.
      * intros A x I. apply A. now right.
Qed.

Lemma Init_range_first_error (pre post : list ACMEChallenge)
  (c : ACMEChallenge) :
  (forall x, In x pre -> Validate x = None) ->
  Validate c <> None ->
  Init_range (pre ++ c :: post)%list = Validate c.
Proof.
  induction pre as [|x pre IH]; cbn; intros A V.
  - destruct (Validate c); congruence.
  - rewrite (A x (or_introl eq_refl)). apply IH; auto.
Qed.

Lemma Init_range_invalid (cs : list ACMEChallenge) :
  (exists c, In c cs /\ Validate c <> None) -> Init_range cs <> None.
Proof.
  intros (c & I & V) E. apply V.
  now apply (proj1 (Init_range_None_iff cs) E).
Qed.

(** Once the fields have passed validation, [Init] is the call of
    [NewController]: its controller is stored and its error returned. *)
Lemma Init_validated (p : ACME) (config : Config) :
  Type_ p <> EmptyString -> Name p <> EmptyString ->
  (forall c, In c (Challenges p) -> Validate c = None) ->
  Init p config =
  (set_ctl p (fst (NewController p (Claims_ p) config (Options_ p))),
   snd (NewController p (Claims_ p) config (Options_ p))).
Proof.
  intros T Nm V. unfold Init.
  destruct (String.eqb_spec (Type_ p) EmptyString); [contradiction|].
  destruct (String.eqb_spec (Name p) EmptyString); [contradiction|].
  rewrite (proj2 (Init_range_None_iff _) V).
  now destruct (NewController _ _ _ _).
Qed.

(** ** The loop of [IsChallengeEnabled] *)

Lemma IsChallengeEnabled_range_iff (l : list ACMEChallenge)
  (challenge : ACMEChallenge) :
  IsChallengeEnabled_range l challenge = true <->
  exists ch, In ch l /\ strings.EqualFold ch challenge = true.
Proof.
  induction l as [|x l IH]; cbn.
  - split; [discriminate | intros (? & [] & _)].
  - destruct (strings.EqualFold x challenge) eqn:E.
    + split; [|reflexivity]. intros _. exists x. auto.
    + rewrite IH. split.
      * intros (ch & I & F). exists ch. auto.
      * intros (ch & [<-|I] & F); [congruence|]. exists ch. auto.
Qed.

Lemma enabledChallenges_effective (p : ACME) :
  (if (0 <? length (Challenges p))%nat then Challenges p
   else [HTTP_01; DNS_01; TLS_ALPN_01]) = effective_set p.
Proof. unfold effective_set. now destruct (Challenges p). Qed.

(** ** The sign options *)

(** Without a controller the first field selection panics. *)
Lemma AuthorizeSign_nil_controller (p : ACME) (token : string) :
  ctl p = None -> AuthorizeSign p token = Panics.
Proof. intros E. unfold AuthorizeSign. now rewrite E. Qed.

(** ** The claims *)


(** C4. For every provisioner and every challenge string,
    [IsChallengeEnabled] returns [true] if and only if [strings.EqualFold]
    matches the challenge with a member of the effective set: the
    configured [Challenges] verbatim when that list is not empty, and
    http-01, dns-01, tls-alpn-01 (without device-attest-01) when it is. *)
Theorem IsChallengeEnabled_effective_set (p : ACME)
  (challenge : ACMEChallenge) :
  (IsChallengeEnabled p challenge = true <->
   exists ch, In ch (effective_set p) /\
              strings.EqualFold ch challenge = true) /\
  (Challenges p = [] /\ effective_set p = [HTTP_01; DNS_01; TLS_ALPN_01] /\
     ~ In DEVICE_ATTEST_01 (effective_set p)
   \/ Challenges p <> [] /\ effective_set p = Challenges p).
Proof.
  split.
  - unfold IsChallengeEnabled. cbv zeta.
    rewrite enabledChallenges_effective. apply IsChallengeEnabled_range_iff.
  - unfold effective_set. destruct (Challenges p) as [|x l].
    + left. repeat split. cbn. intros [E|[E|[E|[]]]]; discriminate E.
    + right. split; [discriminate | reflexivity].
Qed.

(** C8. For every provisioner and every token, [AuthorizeRevoke] returns
    [nil]. *)
Theorem AuthorizeRevoke_always_nil (p : ACME) (token : string) :
  AuthorizeRevoke p token = None.
Proof. reflexivity. Qed.

(** C3. When the controller has no X.509 policy, [AuthorizeOrderIdentifier]
    returns [nil] for every identifier, whatever its kind and value. *)
Theorem AuthorizeOrderIdentifier_no_policy (p : ACME) :
  getX509 (getPolicy (ctl p)) = None ->
  forall identifier, AuthorizeOrderIdentifier p identifier = None.
Proof.
  intros E identifier. unfold AuthorizeOrderIdentifier. now rewrite E.
Qed.

(** C5. When the controller has the X.509 policy [g],
    [AuthorizeOrderIdentifier] on an identifier of kind ip returns what
    [IsIPAllowed] of [g] answers on [net.ParseIP] of the value (the [nil]
    address when the value does not parse), and on an identifier of kind
    dns what [IsDNSAllowed] of [g] answers on the value. *)
Theorem AuthorizeOrderIdentifier_asks_policy (p : ACME) (g : X509Policy)
  (identifier : ACMEIdentifier.t) :
  getX509 (getPolicy (ctl p)) = Some g ->
  (ACMEIdentifier.Type_ identifier = IP ->
     AuthorizeOrderIdentifier p identifier =
       IsIPAllowed g (net.ParseIP (ACMEIdentifier.Value identifier)) /\
     (net.ParseIP (ACMEIdentifier.Value identifier) = None ->
        AuthorizeOrderIdentifier p identifier = IsIPAllowed g None)) /\
  (ACMEIdentifier.Type_ identifier = DNS ->
     AuthorizeOrderIdentifier p identifier =
       IsDNSAllowed g (ACMEIdentifier.Value identifier)).
Proof.
  intros E. unfold AuthorizeOrderIdentifier. rewrite E. split.
  - intros ->. cbn. split; [reflexivity | now intros ->].
  - intros ->. reflexivity.
Qed.

(** C2, amended. For every identifier whose kind is neither ip nor dns,
    [AuthorizeOrderIdentifier] returns the unsupported-identifier-type
    error naming that kind whenever the controller has an X.509 policy,
    and returns [nil] when it has none. *)
Theorem AuthorizeOrderIdentifier_other_kind (p : ACME)
  (identifier : ACMEIdentifier.t) :
  ACMEIdentifier.Type_ identifier <> IP ->
  ACMEIdentifier.Type_ identifier <> DNS ->
  (forall g, getX509 (getPolicy (ctl p)) = Some g ->
     AuthorizeOrderIdentifier p identifier =
       Some (fmtErrorf "invalid ACME identifier type '%s' provided"
               [identifierTypeOperand (ACMEIdentifier.Type_ identifier)])) /\
  (getX509 (getPolicy (ctl p)) = None ->
     AuthorizeOrderIdentifier p identifier = None).
Proof.
  intros NI ND. unfold AuthorizeOrderIdentifier. split.
  - intros g ->.
    destruct (String.eqb_spec (ACMEIdentifier.Type_ identifier) IP);
      [contradiction|].
    destruct (String.eqb_spec (ACMEIdentifier.Type_ identifier) DNS);
      [contradiction|].
    reflexivity.
  - now intros ->.
Qed.

(** C1, amended. For every provisioner that holds a controller and every
    token, [AuthorizeSign] returns a [nil] error and the chain made of the
    provisioner itself followed by the six elements of section 4.5 in
    their order: provisioner-identity modifier, forced-CN modifier,
    default-duration modifier, public-key validator, validity validator,
    name-policy validator. *)
Theorem AuthorizeSign_chain (p : ACME) (c : Controller) (token : string) :
  ctl p = Some c ->
  AuthorizeSign p token =
  Returns (provisionerItself p :: section_4_5_chain p c, None).
Proof.
  intros E. unfold AuthorizeSign, section_4_5_chain, getPolicy.
  rewrite E. reflexivity.
Qed.

(** C9. The chain that [AuthorizeSign] returns has seven elements: the
    first is the provisioner itself, the other six are those of section
    4.5 in their order; the error next to it is [nil]. *)
Theorem AuthorizeSign_seven_elements (p : ACME) (c : Controller)
  (token : string) :
  ctl p = Some c ->
  exists opts,
    AuthorizeSign p token = Returns (opts, None) /\
    length opts = 7%nat /\
    hd_error opts = Some (provisionerItself p) /\
    tl opts = section_4_5_chain p c.
Proof.
  intros E. unfold AuthorizeSign. rewrite E.
  eexists. split; [reflexivity|].
  cbn [length hd_error tl]. repeat split.
Qed.

(** C6. [Init] fails with the type error when [Type] is empty and with the
    name error when [Name] is; otherwise it validates the entries of
    [Challenges] in order and the first one that fails [Validate] ends
    the initialisation with the error built from that entry; with valid
    fields, when [NewController] returns a controller, [Init] succeeds
    and stores it, so that [DefaultTLSCertDuration] then returns that
    controller's default. *)
Theorem Init_contract (p : ACME) (config : Config) :
  (Type_ p = EmptyString ->
     Init p config =
       (p, Some (errorsNew "provisioner type cannot be empty"))) /\
  (Type_ p <> EmptyString -> Name p = EmptyString ->
     Init p config =
       (p, Some (errorsNew "provisioner name cannot be empty"))) /\
  (Type_ p <> EmptyString -> Name p <> EmptyString ->
     forall (pre : list ACMEChallenge) c post,
       Challenges p = (pre ++ c :: post)%list ->
       (forall x, In x pre -> Validate x = None) ->
       Validate c <> None ->
       Init p config =
         (p, Some (fmtErrorf "acme challenge %q is not supported"
                     [challengeOperand c]))) /\
  (Type_ p <> EmptyString -> Name p <> EmptyString ->
     (forall x, In x (Challenges p) -> Validate x = None) ->
     forall c,
       NewController p (Claims_ p) config (Options_ p) = (Some c, None) ->
       Init p config = (set_ctl p (Some c), None) /\
       DefaultTLSCertDuration (fst (Init p config)) =
         Returns (Claimer.DefaultTLSCertDuration (Claimer c))).
Proof.
  split; [|split; [|split]].
  - intros T. unfold Init. now rewrite T.
  - intros T Nm. unfold Init.
    destruct (String.eqb_spec (Type_ p) EmptyString); [contradiction|].
    now rewrite Nm.
  - intros T Nm pre c post Ch A V. unfold Init.
    destruct (String.eqb_spec (Type_ p) EmptyString); [contradiction|].
    destruct (String.eqb_spec (Name p) EmptyString); [contradiction|].
    rewrite Ch, (Init_range_first_error pre post c A V).
    now rewrite (Validate_error c V).
  - intros T Nm V c E. rewrite (Init_validated p config T Nm V), E.
    split; reflexivity.
Qed.

(** C10. When [Init] fails in its field validation (empty [Type], empty
    [Name], or an entry of [Challenges] that fails [Validate]) it returns
    an error and leaves the provisioner as it was: [ctl] is unchanged, and
    still [nil] if it was. *)
Theorem Init_field_error_keeps_state (p : ACME) (config : Config) :
  Type_ p = EmptyString \/ Name p = EmptyString \/
  (exists c, In c (Challenges p) /\ Validate c <> None) ->
  snd (Init p config) <> None /\
  fst (Init p config) = p /\
  ctl (fst (Init p config)) = ctl p /\
  (ctl p = None -> ctl (fst (Init p config)) = None).
Proof.
  intros H.
  assert (E : snd (Init p config) <> None /\ fst (Init p config) = p).
  { unfold Init.
    destruct (String.eqb_spec (Type_ p) EmptyString) as [T|T];
      [split; [discriminate | reflexivity]|].
    destruct (String.eqb_spec (Name p) EmptyString) as [Nm|Nm];
      [split; [discriminate | reflexivity]|].
    destruct H as [H|[H|H]]; [contradiction | contradiction |].
    apply Init_range_invalid in H.
    destruct (Init_range (Challenges p)); [|contradiction].
    split; [discriminate | reflexivity]. }
  destruct E as [E1 E2]. rewrite E2. auto.
Qed.

End Properties.

(** ** Validation on ASCII text *)

(** On ASCII text [Validate] accepts exactly the strings that
    [EqualFold] matches with one of the four defined kinds. *)
Lemma Validate_ascii_fold (c : ACMEChallenge) :
  @Validate ASCII.API c = None <->
  exists k, In k definedKinds /\ ASCII.EqualFold c k = true.
Proof.
  rewrite (@Validate_None_iff ASCII.API c). split.
  - intros I. exists (ASCII.ToLower c). split; [exact I|].
    apply EqualFold_ToLower. symmetry. now apply ToLower_definedKinds.
  - intros (k & I & F). apply EqualFold_ToLower in F.
    rewrite (ToLower_definedKinds k I) in F.
    unfold ACMEChallenge_String. cbn. now rewrite F.
Qed.

(** ** The claims on concrete inputs *)

(** Section 8 on ASCII text: mixed case is accepted, an unknown name is
    refused and the error carries it. *)
Example Validate_mixed_case :
  @Validate ASCII.API "TLS-Alpn-01" = None.
Proof. reflexivity. Qed.

Example Validate_unknown :
  @Validate ASCII.API "zar" =
  Some (fmtErrorf "acme challenge %q is not supported"
          [challengeOperand "zar"]).
Proof. reflexivity. Qed.

(** The challenge is a [Stringer]: the message prints its lower-case
    form. *)
Example Validate_unknown_printed :
  @printed ASCII.API (challengeOperand "ZAR") = "zar".
Proof. reflexivity. Qed.

(** Section 8: with no configured challenge the three defaults are
    enabled and device-attest-01 is not. *)
Example IsChallengeEnabled_defaults :
  map (@IsChallengeEnabled ASCII.API _ (Fixture.loaded [] None))
    ["http-01"; "DNS-01"; "tls-alpn-01"; "device-attest-01"] =
  [true; true; true; false].
Proof. reflexivity. Qed.

(** Section 8: with device-attest-01 alone configured, it alone is
    enabled. *)
Example IsChallengeEnabled_configured :
  map (@IsChallengeEnabled ASCII.API _
         (Fixture.loaded [DEVICE_ATTEST_01] None))
    ["http-01"; "dns-01"; "tls-alpn-01"; "device-attest-01"] =
  [false; false; false; true].
Proof. reflexivity. Qed.

(** Section 8: a gate that denies a DNS name, and allows an address. *)
Example AuthorizeOrderIdentifier_denied_name :
  @AuthorizeOrderIdentifier Fixture.netAPI _
    (Fixture.initialised [] (Some Fixture.gate))
    (ACMEIdentifier.Build "dns" "denied.example.com") =
  Some (errorsNew "dns name not allowed").
Proof. reflexivity. Qed.

Example AuthorizeOrderIdentifier_allowed_address :
  @AuthorizeOrderIdentifier Fixture.netAPI _
    (Fixture.initialised [] (Some Fixture.gate))
    (ACMEIdentifier.Build "ip" "127.0.0.1") = None.
Proof. reflexivity. Qed.

(** [Init] on a loaded provisioner stores the controller. *)
Example Init_stores_controller :
  @Init ASCII.API _ Fixture.constructors
    (Fixture.loaded ["http-01"] (Some Fixture.gate)) Fixture.config =
  (Fixture.initialised ["http-01"] (Some Fixture.gate), None).
Proof. reflexivity. Qed.

(** When [NewController] fails, [Init] has already assigned what it
    returned to [ctl]. *)
Example Init_constructor_error :
  @Init ASCII.API _ Fixture.constructors
    (set_ctl (Fixture.loaded [] None)
       (Some {| Claimer := Fixture.config; policy := None |}))
    (Claimer.Build 1%Z 2%Z 3%Z) =
  (Fixture.loaded [] None, Some (errorsNew "default duration out of bounds")).
Proof. reflexivity. Qed.

(** Before [Init] has stored a controller, [AuthorizeSign] panics. *)
Example AuthorizeSign_before_Init :
  AuthorizeSign (Fixture.loaded [] None) "token" = Panics.
Proof. reflexivity. Qed.


(** C1: on an initialised provisioner the chain does not have six
    elements. *)
Lemma AuthorizeSign_not_six :
  exists opts err,
    AuthorizeSign (Fixture.initialised [] None) "token" = Returns (opts, err) /\
    length opts <> 6%nat.
Proof.
  eexists. eexists. split; [reflexivity|]. cbn. discriminate.
Qed.

Lemma AuthorizeSign_chain_witness :
  ctl (Fixture.initialised [] None) = Some (Fixture.controller None) /\
  AuthorizeSign (Fixture.initialised [] None) "token" =
  Returns
    ([ provisionerItself (Fixture.initialised [] None);
       newProvisionerExtensionOption TypeACME "acme" EmptyString;
       newForceCNOption true;
       profileDefaultDuration 86400000000000%Z;
       defaultPublicKeyValidator;
       newValidityValidator 300000000000%Z 31536000000000000%Z;
       newX509NamePolicyValidator None ], None).
Proof.
  split; [reflexivity|].
  apply (@AuthorizeSign_chain Fixture.declarations
           (Fixture.initialised [] None) (Fixture.controller None) "token").
  reflexivity.
Defined.

Lemma AuthorizeSign_seven_elements_witness :
  exists opts,
    AuthorizeSign (Fixture.initialised [] (Some Fixture.gate)) "token" =
      Returns (opts, None) /\
    length opts = 7%nat /\
    hd_error opts =
      Some (provisionerItself (Fixture.initialised [] (Some Fixture.gate))) /\
    tl opts =
      section_4_5_chain (Fixture.initialised [] (Some Fixture.gate))
        (Fixture.controller (Some Fixture.gate)).
Proof.
  apply (@AuthorizeSign_seven_elements Fixture.declarations
           (Fixture.initialised [] (Some Fixture.gate))
           (Fixture.controller (Some Fixture.gate)) "token").
  reflexivity.
Defined.

(** C2: without a policy an identifier of an unknown kind is allowed. *)
Lemma AuthorizeOrderIdentifier_unknown_allowed :
  ACMEIdentifier.Type_ Fixture.unknownIdentifier <> IP /\
  ACMEIdentifier.Type_ Fixture.unknownIdentifier <> DNS /\
  @AuthorizeOrderIdentifier Fixture.netAPI _
    (Fixture.initialised [] None) Fixture.unknownIdentifier = None.
Proof. repeat split; discriminate. Qed.

Lemma AuthorizeOrderIdentifier_other_kind_witness :
  @AuthorizeOrderIdentifier Fixture.netAPI _
    (Fixture.initialised [] (Some Fixture.gate)) Fixture.unknownIdentifier =
    Some (fmtErrorf "invalid ACME identifier type '%s' provided"
            [identifierTypeOperand "unknown"]) /\
  @AuthorizeOrderIdentifier Fixture.netAPI _
    (Fixture.initialised [] None) Fixture.unknownIdentifier = None.
Proof.
  split.
  - apply (proj1 (@AuthorizeOrderIdentifier_other_kind Fixture.netAPI
                    Fixture.declarations
                    (Fixture.initialised [] (Some Fixture.gate))
                    Fixture.unknownIdentifier
                    ltac:(discriminate) ltac:(discriminate))
             Fixture.gate).
    reflexivity.
  - apply (proj2 (@AuthorizeOrderIdentifier_other_kind Fixture.netAPI
                    Fixture.declarations
                    (Fixture.initialised [] None)
                    Fixture.unknownIdentifier
                    ltac:(discriminate) ltac:(discriminate))).
    reflexivity.
Defined.

Lemma AuthorizeOrderIdentifier_no_policy_witness :
  getX509 (getPolicy (ctl (Fixture.initialised [] None))) = None /\
  @AuthorizeOrderIdentifier Fixture.netAPI _
    (Fixture.initialised [] None) (ACMEIdentifier.Build "ip" "not-an-ip") =
  None.
Proof.
  split; [reflexivity|].
  apply (@AuthorizeOrderIdentifier_no_policy Fixture.netAPI
           Fixture.declarations (Fixture.initialised [] None)).
  reflexivity.
Defined.

Lemma AuthorizeOrderIdentifier_asks_policy_witness :
  @AuthorizeOrderIdentifier Fixture.netAPI _
    (Fixture.initialised [] (Some Fixture.gate))
    (ACMEIdentifier.Build "ip" "not-an-ip") =
    Some (errorsNew "ip address not allowed") /\
  @AuthorizeOrderIdentifier Fixture.netAPI _
    (Fixture.initialised [] (Some Fixture.gate))
    (ACMEIdentifier.Build "dns" "allowed.example.com") = None.
Proof.
  split.
  - apply (proj2 (proj1 (@AuthorizeOrderIdentifier_asks_policy
                           Fixture.netAPI Fixture.declarations
                           (Fixture.initialised [] (Some Fixture.gate))
                           Fixture.gate
                           (ACMEIdentifier.Build "ip" "not-an-ip")
                           eq_refl) eq_refl)).
    reflexivity.
  - apply (proj2 (@AuthorizeOrderIdentifier_asks_policy
                    Fixture.netAPI Fixture.declarations
                    (Fixture.initialised [] (Some Fixture.gate))
                    Fixture.gate
                    (ACMEIdentifier.Build "dns" "allowed.example.com")
                    eq_refl)).
    reflexivity.
Defined.

Lemma Init_contract_witness :
  @Init ASCII.API _ Fixture.constructors Fixture.untyped Fixture.config =
    (Fixture.untyped, Some (errorsNew "provisioner type cannot be empty")) /\
  @Init ASCII.API _ Fixture.constructors Fixture.unnamed Fixture.config =
    (Fixture.unnamed, Some (errorsNew "provisioner name cannot be empty")) /\
  @Init ASCII.API _ Fixture.constructors
    (Fixture.loaded ["HTTP-01"; "zar"; "bar"] None) Fixture.config =
    (Fixture.loaded ["HTTP-01"; "zar"; "bar"] None,
     Some (fmtErrorf "acme challenge %q is not supported"
             [challengeOperand "zar"])) /\
  @DefaultTLSCertDuration _
    (fst (@Init ASCII.API _ Fixture.constructors
            (Fixture.loaded ["HTTP-01"; "device-attest-01"] None)
            Fixture.config)) =
    Returns 86400000000000%Z.
Proof.
  split; [|split; [|split]].
  - apply (proj1 (@Init_contract ASCII.API Fixture.declarations
                    Fixture.constructors Fixture.untyped Fixture.config)).
    reflexivity.
  - apply (proj1 (proj2 (@Init_contract ASCII.API Fixture.declarations
                           Fixture.constructors Fixture.unnamed
                           Fixture.config))).
    + discriminate.
    + reflexivity.
  - apply (proj1 (proj2 (proj2
             (@Init_contract ASCII.API Fixture.declarations
                Fixture.constructors
                (Fixture.loaded ["HTTP-01"; "zar"; "bar"] None)
                Fixture.config)))
             ltac:(discriminate) ltac:(discriminate)
             ["HTTP-01"] "zar" ["bar"]).
    + reflexivity.
    + intros x [<-|[]]. reflexivity.
    + discriminate.
  - refine (proj2 (proj2 (proj2 (proj2
              (@Init_contract ASCII.API Fixture.declarations
                 Fixture.constructors
                 (Fixture.loaded ["HTTP-01"; "device-attest-01"] None)
                 Fixture.config)))
              _ _ _ (Fixture.controller None) _)).
    + discriminate.
    + discriminate.
    + intros x [<-|[<-|[]]]; reflexivity.
    + reflexivity.
Defined.

Lemma Init_field_error_keeps_state_witness :
  snd (@Init ASCII.API _ Fixture.constructors
         (Fixture.loaded ["dns-01"; "zar"] None) Fixture.config) <> None /\
  ctl (fst (@Init ASCII.API _ Fixture.constructors
              (Fixture.loaded ["dns-01"; "zar"] None) Fixture.config)) = None.
Proof.
  destruct (@Init_field_error_keeps_state ASCII.API Fixture.declarations
              Fixture.constructors (Fixture.loaded ["dns-01"; "zar"] None)
              Fixture.config) as (E & _ & _ & C).
  - right. right. exists "zar". split; [cbn; auto | discriminate].
  - split; [exact E | apply C; reflexivity].
Defined.

(* ===================================================================== *)
(** * Part III. Further properties of [acme.go] *)
(* ===================================================================== *)

Section Further.
Context {go_strings : strings.API} {go_net : net.API}
  {decls : Declarations} {ctors : Constructors}.

(** ** Identifiers of the provisioner *)

(** X1. The identifier of a provisioner is never empty: it is the [ID] field
    when that is set, and otherwise ["acme/"] followed by the name. *)
Theorem GetID_never_empty (p : ACME) :
  GetID p <> EmptyString /\
  (ID p <> EmptyString /\ GetID p = ID p \/
   ID p = EmptyString /\ GetID p = "acme/" ++ Name p).
Proof.
  unfold GetID, GetIDForToken.
  destruct (String.eqb_spec (ID p) EmptyString) as [E|E].
  - split; [discriminate | right; split; [exact E | reflexivity]].
  - split; [exact E | left; split; [exact E | reflexivity]].
Qed.

(** X2. Two provisioners have the same token identifier exactly when they
    have the same name. *)
Theorem GetIDForToken_injective (p q : ACME) :
  GetIDForToken p = GetIDForToken q <-> Name p = Name q.
Proof.
  unfold GetIDForToken. split.
  - cbn. intros E. now injection E.
  - now intros ->.
Qed.

(** ** Initialisation *)

(** X3. [Init] assigns to [ctl] and to nothing else: on every path the
    configuration fields of the provisioner are as they were. *)
Theorem Init_preserves_configuration (p : ACME) (config : Config) :
  ID (fst (Init p config)) = ID p /\
  Type_ (fst (Init p config)) = Type_ p /\
  Name (fst (Init p config)) = Name p /\
  ForceCN (fst (Init p config)) = ForceCN p /\
  RequireEAB (fst (Init p config)) = RequireEAB p /\
  Challenges (fst (Init p config)) = Challenges p /\
  Claims_ (fst (Init p config)) = Claims_ p /\
  Options_ (fst (Init p config)) = Options_ p.
Proof.
  unfold Init.
  destruct (Type_ p =? EmptyString); [repeat split|].
  destruct (Name p =? EmptyString); [repeat split|].
  destruct (Init_range (Challenges p)); [repeat split|].
  destruct (NewController p (Claims_ p) config (Options_ p)) as [c err].
  repeat split.
Qed.

(** The provisioner after [Init] is the one before it up to [ctl]. *)
Lemma Init_only_sets_ctl (p : ACME) (config : Config) :
  exists c, fst (Init p config) = set_ctl p c.
Proof.
  assert (Same : p = set_ctl p (ctl p)) by now destruct p.
  unfold Init.
  destruct (Type_ p =? EmptyString); [now exists (ctl p)|].
  destruct (Name p =? EmptyString); [now exists (ctl p)|].
  destruct (Init_range (Challenges p)); [now exists (ctl p)|].
  destruct (NewController p (Claims_ p) config (Options_ p)) as [c err].
  now exists c.
Qed.

(** X4. Whatever [Init] returns, the provisioner answers as before where the
    controller is not consulted: its identifiers, name and options are
    the same and the same challenges are enabled. *)
Theorem Init_preserves_answers (p : ACME) (config : Config) :
  GetID (fst (Init p config)) = GetID p /\
  GetIDForToken (fst (Init p config)) = GetIDForToken p /\
  GetName (fst (Init p config)) = GetName p /\
  GetOptions (fst (Init p config)) = GetOptions p /\
  (forall challenge,
     IsChallengeEnabled (fst (Init p config)) challenge =
     IsChallengeEnabled p challenge).
Proof.
  destruct (Init_only_sets_ctl p config) as [c ->].
  repeat split.
Qed.

(** X5. When [Init] returns no error, the type and the name are not empty,
    every configured challenge is valid, and [NewController] has returned
    no error and the controller that is now in [ctl]. *)
Theorem Init_success (p : ACME) (config : Config) :
  snd (Init p config) = None ->
  Type_ p <> EmptyString /\
  Name p <> EmptyString /\
  (forall c, In c (Challenges p) -> Validate c = None) /\
  NewController p (Claims_ p) config (Options_ p) =
    (ctl (fst (Init p config)), None).
Proof.
  unfold Init.
  destruct (String.eqb_spec (Type_ p) EmptyString) as [T|T];
    [discriminate|].
  destruct (String.eqb_spec (Name p) EmptyString) as [Nm|Nm];
    [discriminate|].
  destruct (Init_range (Challenges p)) eqn:R; [discriminate|].
  destruct (NewController p (Claims_ p) config (Options_ p)) as [c err].
  cbn. intros ->. repeat split; try assumption.
  now apply Init_range_None_iff.
Qed.

(** An error of the validation loop comes from one entry: the entries
    before it are valid and it is not. *)
Lemma Init_range_error (cs : list ACMEChallenge) (e : error) :
  Init_range cs = Some e ->
  exists pre c post,
    cs = (pre ++ c :: post)%list /\
    (forall x, In x pre -> Validate x = None) /\
    Validate c = Some e.
Proof.
  induction cs as [|x cs IH]; cbn; [discriminate|].
  destruct (Validate x) eqn:V.
  - intros [= <-]. exists [], x, cs. repeat split; auto. intros ? [].
  - intros R. destruct (IH R) as (pre & c & post & -> & A & Vc).
    exists (x :: pre), c, post. repeat split; auto.
    intros y [<-|I]; auto.
Qed.

(** X6. The errors of [Init]: the type error, the name error, the error of
    the first configured challenge that is not valid, or the error of
    [NewController]. *)
Theorem Init_errors (p : ACME) (config : Config) (e : error) :
  snd (Init p config) = Some e ->
  (Type_ p = EmptyString /\
   e = errorsNew "provisioner type cannot be empty") \/
  (Type_ p <> EmptyString /\ Name p = EmptyString /\
   e = errorsNew "provisioner name cannot be empty") \/
  (Type_ p <> EmptyString /\ Name p <> EmptyString /\
   exists pre c post,
     Challenges p = (pre ++ c :: post)%list /\
     (forall x, In x pre -> Validate x = None) /\
     Validate c <> None /\
     e = fmtErrorf "acme challenge %q is not supported"
           [challengeOperand c]) \/
  (Type_ p <> EmptyString /\ Name p <> EmptyString /\
   (forall c, In c (Challenges p) -> Validate c = None) /\
   snd (NewController p (Claims_ p) config (Options_ p)) = Some e).
Proof.
  unfold Init.
  destruct (String.eqb_spec (Type_ p) EmptyString) as [T|T].
  { cbn. intros [= <-]. left. auto. }
  destruct (String.eqb_spec (Name p) EmptyString) as [Nm|Nm].
  { cbn. intros [= <-]. right. left. auto. }
  destruct (Init_range (Challenges p)) as [e'|] eqn:R.
  - cbn. intros [= <-]. right. right. left.
    destruct (Init_range_error _ _ R) as (pre & c & post & Ch & A & V).
    repeat split; try assumption.
    exists pre, c, post. repeat split; try assumption.
    + congruence.
    + assert (V' : Validate c <> None) by congruence.
      apply Validate_error in V'. congruence.
  - destruct (NewController p (Claims_ p) config (Options_ p)) as [c err].
    cbn. intros ->. right. right. right.
    repeat split; try assumption. now apply Init_range_None_iff.
Qed.

(** X7. When the fields are valid and [NewController] fails, [Init] has
    assigned what the constructor returned to [ctl] all the same: a
    controller held before is replaced, and if [nil] was returned
    [AuthorizeSign] and [DefaultTLSCertDuration] panic afterwards. *)
Theorem Init_constructor_failure (p : ACME) (config : Config)
  (c : option Controller) (e : error) :
  Type_ p <> EmptyString -> Name p <> EmptyString ->
  (forall x, In x (Challenges p) -> Validate x = None) ->
  NewController p (Claims_ p) config (Options_ p) = (c, Some e) ->
  Init p config = (set_ctl p c, Some e) /\
  (c = None ->
     forall token,
       AuthorizeSign (fst (Init p config)) token = Panics /\
       DefaultTLSCertDuration (fst (Init p config)) = Panics).
Proof.
  intros T Nm V E. rewrite (Init_validated p config T Nm V), E. cbn [fst snd].
  split; [reflexivity|]. intros -> token. split; reflexivity.
Qed.

(** ** Sign options *)

(** X8. [AuthorizeSign] never reads the token. *)
Theorem AuthorizeSign_ignores_token (p : ACME) (t1 t2 : string) :
  AuthorizeSign p t1 = AuthorizeSign p t2.
Proof. unfold AuthorizeSign. destruct (ctl p); reflexivity. Qed.

(** A validation error of [Init] leaves the provisioner as it was. *)
Lemma Init_validation_error (p : ACME) (config : Config) :
  Type_ p = EmptyString \/ Name p = EmptyString \/
  (exists c, In c (Challenges p) /\ Validate c <> None) ->
  fst (Init p config) = p.
Proof.
  intros H. unfold Init.
  destruct (String.eqb_spec (Type_ p) EmptyString) as [T|T];
    [reflexivity|].
  destruct (String.eqb_spec (Name p) EmptyString) as [Nm|Nm];
    [reflexivity|].
  destruct H as [H|[H|H]]; [contradiction | contradiction |].
  apply Init_range_invalid in H.
  destruct (Init_range (Challenges p)); [reflexivity | contradiction].
Qed.

(** X9. A provisioner that has no controller yet and whose [Init] fails
    in the validation of its fields (empty [Type], empty [Name], or a
    challenge that is not valid) must not be used: [AuthorizeSign] and
    [DefaultTLSCertDuration] panic on it, for [p.ctl] is still [nil]. *)
Theorem use_after_failed_Init (p : ACME) (config : Config)
  (token : string) :
  ctl p = None ->
  Type_ p = EmptyString \/ Name p = EmptyString \/
  (exists c, In c (Challenges p) /\ Validate c <> None) ->
  snd (Init p config) <> None /\
  AuthorizeSign (fst (Init p config)) token = Panics /\
  DefaultTLSCertDuration (fst (Init p config)) = Panics.
Proof.
  intros Nil H. rewrite (Init_validation_error p config H).
  split; [|split].
  - unfold Init.
    destruct (Type_ p =? EmptyString) eqn:T; [discriminate|].
    destruct (Name p =? EmptyString) eqn:Nm; [discriminate|].
    apply String.eqb_neq in T, Nm.
    destruct H as [H|[H|H]]; [contradiction | contradiction |].
    apply Init_range_invalid in H.
    destruct (Init_range (Challenges p)); [discriminate | contradiction].
  - now apply AuthorizeSign_nil_controller.
  - unfold DefaultTLSCertDuration. now rewrite Nil.
Qed.

(** X10. After an [Init] that returned no error and stored a controller,
    [AuthorizeSign] returns: the first option is the initialised
    provisioner, the others carry the name and the forced-CN flag of the
    configuration and the durations and policy of the stored controller. *)
Theorem AuthorizeSign_after_Init (p : ACME) (config : Config)
  (c : Controller) (token : string) :
  snd (Init p config) = None ->
  ctl (fst (Init p config)) = Some c ->
  AuthorizeSign (fst (Init p config)) token =
  Returns
    ([ provisionerItself (set_ctl p (Some c));
       newProvisionerExtensionOption TypeACME (Name p) EmptyString;
       newForceCNOption (ForceCN p);
       profileDefaultDuration (Claimer.DefaultTLSCertDuration (Claimer c));
       defaultPublicKeyValidator;
       newValidityValidator (Claimer.MinTLSCertDuration (Claimer c))
                            (Claimer.MaxTLSCertDuration (Claimer c));
       newX509NamePolicyValidator (getX509 (policy c)) ], None).
Proof.
  unfold Init.
  destruct (Type_ p =? EmptyString); [discriminate|].
  destruct (Name p =? EmptyString); [discriminate|].
  destruct (Init_range (Challenges p)); [discriminate|].
  destruct (NewController p (Claims_ p) config (Options_ p)) as [c' err].
  cbn. intros -> ->. reflexivity.
Qed.

(** X11. The default-duration modifier of the chain carries the duration that
    [DefaultTLSCertDuration] reports. *)
Theorem DefaultTLSCertDuration_in_chain (p : ACME) (d : Duration)
  (token : string) :
  DefaultTLSCertDuration p = Returns d ->
  exists opts,
    AuthorizeSign p token = Returns (opts, None) /\
    nth_error opts 3 = Some (profileDefaultDuration d).
Proof.
  unfold DefaultTLSCertDuration, AuthorizeSign.
  destruct (ctl p) as [c|]; [|discriminate].
  intros [= <-]. eexists. split; reflexivity.
Qed.

(** ** Order identifiers *)

(** X12. An error of [AuthorizeOrderIdentifier] has one of three origins, and
    all need a policy: the policy refused the parsed address of an ip
    identifier, it refused the name of a dns identifier, or the kind is
    neither of the two. *)
Theorem AuthorizeOrderIdentifier_errors (p : ACME)
  (identifier : ACMEIdentifier.t) (e : error) :
  AuthorizeOrderIdentifier p identifier = Some e ->
  exists g,
    getX509 (getPolicy (ctl p)) = Some g /\
    ((ACMEIdentifier.Type_ identifier = IP /\
      IsIPAllowed g (net.ParseIP (ACMEIdentifier.Value identifier))
        = Some e) \/
     (ACMEIdentifier.Type_ identifier = DNS /\
      IsDNSAllowed g (ACMEIdentifier.Value identifier) = Some e) \/
     (ACMEIdentifier.Type_ identifier <> IP /\
      ACMEIdentifier.Type_ identifier <> DNS /\
      e = fmtErrorf "invalid ACME identifier type '%s' provided"
            [identifierTypeOperand (ACMEIdentifier.Type_ identifier)])).
Proof.
  unfold AuthorizeOrderIdentifier.
  destruct (getX509 (getPolicy (ctl p))) as [g|]; [|discriminate].
  intros R. exists g. split; [reflexivity|].
  destruct (String.eqb_spec (ACMEIdentifier.Type_ identifier) IP) as [I|I];
    [left; auto|].
  destruct (String.eqb_spec (ACMEIdentifier.Type_ identifier) DNS) as [N|N];
    [right; left; auto|].
  right. right. repeat split; try assumption. congruence.
Qed.

End Further.

(** ** Enabled and valid challenges *)

Lemma foldByte_refl (b : ascii) : ASCII.foldByte b b = true.
Proof. unfold ASCII.foldByte. now rewrite N.eqb_refl. Qed.

Lemma EqualFold_refl (s : string) : ASCII.EqualFold s s = true.
Proof.
  induction s as [|b s IH]; cbn; [reflexivity|].
  now rewrite foldByte_refl.
Qed.

Lemma EqualFold_eqb (s t : string) :
  ASCII.EqualFold s t = (ASCII.ToLower s =? ASCII.ToLower t).
Proof.
  destruct (String.eqb_spec (ASCII.ToLower s) (ASCII.ToLower t)) as [E|E].
  - now apply EqualFold_ToLower.
  - destruct (ASCII.EqualFold s t) eqn:F; [|reflexivity].
    apply EqualFold_ToLower in F. contradiction.
Qed.

Section CaseFolding.
Context {go_strings : strings.API} {decls : Declarations}.

(** X13. With an [EqualFold] that matches every string with itself, as Go's
    does, every member of the effective set is enabled: each configured
    challenge, or each of the three defaults when none is configured. *)
Theorem effective_set_enabled (p : ACME) (ch : ACMEChallenge) :
  (forall s, strings.EqualFold s s = true) ->
  In ch (effective_set p) ->
  IsChallengeEnabled p ch = true.
Proof.
  intros Refl I. unfold IsChallengeEnabled. cbv zeta.
  rewrite enabledChallenges_effective.
  apply IsChallengeEnabled_range_iff. exists ch. auto.
Qed.

(** The three defaults are ASCII text in lower case and valid. *)
Lemma defaults_valid (m : ACMEChallenge) :
  ASCII.onASCII go_strings ->
  In m [HTTP_01; DNS_01; TLS_ALPN_01] ->
  ASCII.isASCII m = true /\ Validate m = None.
Proof.
  intros [L _] I. assert (A : ASCII.isASCII m = true).
  { destruct I as [<-|[<-|[<-|[]]]]; reflexivity. }
  split; [exact A|]. apply Validate_None_iff.
  unfold ACMEChallenge_String. rewrite (L m A).
  destruct I as [<-|[<-|[<-|[]]]]; cbn; auto.
Qed.

(** X14. On ASCII text a challenge that is enabled is a valid one, for a
    provisioner whose configured challenges are valid (as after [Init]):
    what [EqualFold] matches with a valid challenge has the same
    lower-case form. *)
Theorem enabled_challenge_valid (p : ACME) (ch : ACMEChallenge) :
  ASCII.onASCII go_strings ->
  ASCII.isASCII ch = true ->
  (forall c, In c (Challenges p) ->
     ASCII.isASCII c = true /\ Validate c = None) ->
  IsChallengeEnabled p ch = true ->
  Validate ch = None.
Proof.
  intros On A V En.
  unfold IsChallengeEnabled in En. cbv zeta in En.
  rewrite enabledChallenges_effective in En.
  apply IsChallengeEnabled_range_iff in En as (m & I & F).
  assert (M : ASCII.isASCII m = true /\ Validate m = None).
  { unfold effective_set in I. destruct (Challenges p) as [|x l] eqn:C.
    - now apply defaults_valid.
    - now apply V. }
  destruct M as [Am Vm]. destruct On as [L E].
  rewrite (E m ch Am A) in F. apply EqualFold_ToLower in F.
  apply Validate_None_iff in Vm. apply Validate_None_iff.
  unfold ACMEChallenge_String in *.
  rewrite (L ch A), <- F, <- (L m Am). exact Vm.
Qed.

(** X15. On ASCII text and with no configured challenge, a valid challenge is
    enabled unless it is device-attest-01, in whatever case it is
    written. *)
Theorem default_enabled (p : ACME) (c : ACMEChallenge) :
  ASCII.onASCII go_strings ->
  ASCII.isASCII c = true ->
  Challenges p = [] ->
  Validate c = None ->
  IsChallengeEnabled p c =
  negb (ACMEChallenge_String c =? DEVICE_ATTEST_01).
Proof.
  intros [L E] A C V. apply Validate_None_iff in V.
  unfold IsChallengeEnabled. rewrite C. cbn.
  rewrite (E HTTP_01 c eq_refl A), (E DNS_01 c eq_refl A),
    (E TLS_ALPN_01 c eq_refl A), !EqualFold_eqb.
  unfold ACMEChallenge_String in *. rewrite (L c A) in *.
  destruct V as [<-|[<-|[<-|[<-|[]]]]]; reflexivity.
Qed.

End CaseFolding.

(** ** The further properties on concrete inputs *)

Lemma Init_success_witness :
  snd (@Init ASCII.API _ Fixture.constructors
         (Fixture.loaded ["HTTP-01"] None) Fixture.config) = None /\
  Fixture.newController (Fixture.loaded ["HTTP-01"] None) None
    Fixture.config None =
  (Some (Fixture.controller None), None).
Proof.
  split; [reflexivity|].
  exact (proj2 (proj2 (proj2
           (@Init_success ASCII.API Fixture.declarations
              Fixture.constructors (Fixture.loaded ["HTTP-01"] None)
              Fixture.config eq_refl)))).
Defined.

Lemma Init_errors_witness :
  let p := Fixture.loaded ["dns-01"; "zar"] None in
  let e := fmtErrorf "acme challenge %q is not supported"
             [challengeOperand "zar"] in
  snd (@Init ASCII.API _ Fixture.constructors p Fixture.config) = Some e /\
  ((Type_ p = EmptyString /\
    e = errorsNew "provisioner type cannot be empty") \/
   (Type_ p <> EmptyString /\ Name p = EmptyString /\
    e = errorsNew "provisioner name cannot be empty") \/
   (Type_ p <> EmptyString /\ Name p <> EmptyString /\
    exists pre c post,
      Challenges p = (pre ++ c :: post)%list /\
      (forall x, In x pre -> @Validate ASCII.API x = None) /\
      @Validate ASCII.API c <> None /\
      e = fmtErrorf "acme challenge %q is not supported"
            [challengeOperand c]) \/
   (Type_ p <> EmptyString /\ Name p <> EmptyString /\
    (forall c, In c (Challenges p) -> @Validate ASCII.API c = None) /\
    snd (Fixture.newController p (Claims_ p) Fixture.config (Options_ p))
      = Some e)).
Proof.
  split; [reflexivity|].
  exact (@Init_errors ASCII.API Fixture.declarations Fixture.constructors
           (Fixture.loaded ["dns-01"; "zar"] None) Fixture.config
           (fmtErrorf "acme challenge %q is not supported"
              [challengeOperand "zar"]) eq_refl).
Defined.

Lemma Init_constructor_failure_witness :
  ctl (Fixture.initialised ["http-01"] None) =
    Some (Fixture.controller None) /\
  @Init ASCII.API _ Fixture.constructors
    (Fixture.initialised ["http-01"] None) Fixture.badConfig =
    (Fixture.loaded ["http-01"] None,
     Some (errorsNew "default duration out of bounds")) /\
  AuthorizeSign
    (fst (@Init ASCII.API _ Fixture.constructors
            (Fixture.initialised ["http-01"] None) Fixture.badConfig))
    "token" = Panics.
Proof.
  split; [reflexivity|].
  destruct (@Init_constructor_failure ASCII.API Fixture.declarations
              Fixture.constructors (Fixture.initialised ["http-01"] None)
              Fixture.badConfig None
              (errorsNew "default duration out of bounds")) as [I P].
  - discriminate.
  - discriminate.
  - intros x [<-|[]]. reflexivity.
  - reflexivity.
  - split; [exact I | exact (proj1 (P eq_refl "token"))].
Defined.

Lemma AuthorizeSign_after_Init_witness :
  AuthorizeSign
    (fst (@Init ASCII.API _ Fixture.constructors
            (Fixture.loaded ["http-01"] (Some Fixture.gate))
            Fixture.config)) "token" =
  Returns
    ([ provisionerItself
         (Fixture.initialised ["http-01"] (Some Fixture.gate));
       newProvisionerExtensionOption TypeACME "acme" EmptyString;
       newForceCNOption true;
       profileDefaultDuration 86400000000000%Z;
       defaultPublicKeyValidator;
       newValidityValidator 300000000000%Z 31536000000000000%Z;
       newX509NamePolicyValidator (Some Fixture.gate) ], None).
Proof.
  exact (@AuthorizeSign_after_Init ASCII.API Fixture.declarations
           Fixture.constructors
           (Fixture.loaded ["http-01"] (Some Fixture.gate)) Fixture.config
           (Fixture.controller (Some Fixture.gate)) "token"
           eq_refl eq_refl).
Defined.

Lemma DefaultTLSCertDuration_in_chain_witness :
  exists opts,
    AuthorizeSign (Fixture.initialised [] None) "token" =
      Returns (opts, None) /\
    nth_error opts 3 = Some (profileDefaultDuration 86400000000000%Z).
Proof.
  exact (@DefaultTLSCertDuration_in_chain Fixture.declarations
           (Fixture.initialised [] None) 86400000000000%Z "token" eq_refl).
Defined.

Lemma AuthorizeOrderIdentifier_errors_witness :
  exists g,
    getX509 (getPolicy (ctl (Fixture.initialised [] (Some Fixture.gate)))) =
      Some g /\
    ((DNS = IP /\
      IsIPAllowed g (@net.ParseIP Fixture.netAPI "denied.example.com") =
        Some (errorsNew "dns name not allowed")) \/
     (DNS = DNS /\
      IsDNSAllowed g "denied.example.com" =
        Some (errorsNew "dns name not allowed")) \/
     (DNS <> IP /\ DNS <> DNS /\
      errorsNew "dns name not allowed" =
        fmtErrorf "invalid ACME identifier type '%s' provided"
          [identifierTypeOperand DNS])).
Proof.
  exact (@AuthorizeOrderIdentifier_errors Fixture.netAPI
           Fixture.declarations
           (Fixture.initialised [] (Some Fixture.gate))
           (ACMEIdentifier.Build DNS "denied.example.com")
           (errorsNew "dns name not allowed") eq_refl).
Defined.

Lemma effective_set_enabled_witness :
  @IsChallengeEnabled ASCII.API _
    (Fixture.loaded [DEVICE_ATTEST_01] None) DEVICE_ATTEST_01 = true.
Proof.
  apply (@effective_set_enabled ASCII.API Fixture.declarations
           (Fixture.loaded [DEVICE_ATTEST_01] None) DEVICE_ATTEST_01
           EqualFold_refl).
  cbn. auto.
Defined.

Lemma enabled_challenge_valid_witness :
  @IsChallengeEnabled ASCII.API _
    (Fixture.loaded ["HTTP-01"; "device-attest-01"] None)
    "Device-Attest-01" = true /\
  @Validate ASCII.API "Device-Attest-01" = None.
Proof.
  split; [reflexivity|].
  apply (@enabled_challenge_valid ASCII.API Fixture.declarations
           (Fixture.loaded ["HTTP-01"; "device-attest-01"] None)
           "Device-Attest-01" onASCII_API eq_refl).
  - intros c [<-|[<-|[]]]; split; reflexivity.
  - reflexivity.
Defined.

Lemma default_enabled_witness :
  @IsChallengeEnabled ASCII.API _ (Fixture.loaded [] None)
    "DEVICE-ATTEST-01" = false /\
  @IsChallengeEnabled ASCII.API _ (Fixture.loaded [] None) "Dns-01" = true.
Proof.
  split.
  - exact (@default_enabled ASCII.API Fixture.declarations
             (Fixture.loaded [] None) "DEVICE-ATTEST-01" onASCII_API
             eq_refl eq_refl eq_refl).
  - exact (@default_enabled ASCII.API Fixture.declarations
             (Fixture.loaded [] None) "Dns-01" onASCII_API
             eq_refl eq_refl eq_refl).
Defined.

Lemma use_after_failed_Init_witness :
  snd (@Init ASCII.API _ Fixture.constructors
         (Fixture.loaded ["dns-01"; "zar"] None) Fixture.config) <> None /\
  AuthorizeSign
    (fst (@Init ASCII.API _ Fixture.constructors
            (Fixture.loaded ["dns-01"; "zar"] None) Fixture.config))
    "token" = Panics /\
  DefaultTLSCertDuration
    (fst (@Init ASCII.API _ Fixture.constructors
            (Fixture.loaded ["dns-01"; "zar"] None) Fixture.config)) =
    Panics.
Proof.
  apply (@use_after_failed_Init ASCII.API Fixture.declarations
           Fixture.constructors (Fixture.loaded ["dns-01"; "zar"] None)
           Fixture.config "token" eq_refl).
  right. right. exists "zar". split; [cbn; auto | discriminate].
Defined.
